(** * remove_bg.py: white-background removal

    A shallow embedding of [src/remove_bg.py].  The script opens an image
    with PIL, normalises it to RGBA, walks over the pixel sequence replacing
    every near-white pixel by a fully transparent white one, stores the new
    sequence back into the image and saves it as PNG.

    - [Py]   : the fragment of Python the script relies on (exceptions,
               tuple indexing, the short-circuit [and]).
    - [PIL]  : the in-memory image, [getdata] / [putdata], and the calls
               that reach outside the process ([Image.open], [convert],
               [save], [print]) as a small command language with a runner
               that threads the outside world and records every call.
    - [RemoveBg] : the function itself, and the properties of it. *)

From Stdlib Require Import ZArith Lia String.
From stdpp Require Import base list strings gmap.

Local Open Scope Z_scope.

(* ------------------------------------------------------------------ *)
(** ** Python fragment *)

Module Py.

(** Exceptions the script can meet.  None is caught anywhere in the
    source, so the only thing that matters about an exception is that it
    stops the call. *)
Inductive exn : Type :=
| IndexError
| TypeError
| ValueError
| FileNotFoundError
| PermissionError
| UnidentifiedImageError
| OSError.

(** Outcome of evaluating an expression or statement: a value, or a raised
    exception. *)
Inductive result (A : Type) : Type :=
| Ok (a : A)
| Err (e : exn).
Arguments Ok {A} a.
Arguments Err {A} e.

(** Sequencing: the first exception raised is the outcome. *)
#[global] Instance result_ret : MRet result := fun A a => Ok a.
#[global] Instance result_bind : MBind result := fun A B k m =>
  match m with
  | Ok a => k a
  | Err e => Err e
  end.

(** A Python tuple of ints. *)
Abbreviation tuple := (list Z) (only parsing).

(** [t[i]] for a literal non-negative index: [IndexError] out of range. *)
Definition getitem (t : tuple) (i : nat) : result Z :=
  match t !! i with
  | Some v => Ok v
  | None => Err IndexError
  end.

End Py.

Import Py.

(* ------------------------------------------------------------------ *)
(** ** PIL *)

Module PIL.

(** An image held in memory: its mode, its size [(width, height)] and its
    pixels in row-major order, one tuple of band values per pixel. *)
Record Image : Type := mkImage {
  mode : string;
  size : nat * nat;
  im : list tuple
}.

Definition width (img : Image) : nat := fst (size img).
Definition height (img : Image) : nat := snd (size img).

(** [img.getdata()]: the flattened pixel sequence. *)
Definition getdata (img : Image) : list tuple := im img.

(** [img.putdata(data)]: copies [data] over the pixels starting at the
    upper left corner.  A sequence longer than the image is refused with
    [TypeError]; pixels past the end of a shorter one keep their value.
    Mode and size are not touched.  Python updates the image in place and
    the script holds the only reference to it, so the updated image is
    returned here and takes the place of the old one. *)
Definition putdata (img : Image) (data : list tuple) : result Image :=
  if (width img * height img <? length data)%nat
  then Err TypeError
  else Ok {| mode := mode img;
             size := size img;
             im := data ++ drop (length data) (im img) |}.

(** The calls that leave the process.  Whether one of them returns or
    raises, and what it returns, is up to the outside world. *)
Inductive call : Type -> Type :=
| Image_open (fp : string) : call Image
| convert (self : Image) (mode : string) : call Image
| save (self : Image) (fp : string) (format : string) : call unit
| print (line : string) : call unit.

(** A straight-line Python body over those calls. *)
Inductive prog (A : Type) : Type :=
| Ret (a : A)
| Raise (e : exn)
| Do {X : Type} (c : call X) (k : X -> prog A).
Arguments Ret {A} a.
Arguments Raise {A} e.
Arguments Do {A X} c k.

(** Pure code that may raise, as a body. *)
Definition lift {A} (m : result A) : prog A :=
  match m with
  | Ok a => Ret a
  | Err e => Raise e
  end.

Fixpoint prog_bind {A B} (k : A -> prog B) (p : prog A) : prog B :=
  match p with
  | Ret a => k a
  | Raise e => Raise e
  | Do c k' => Do c (fun x => prog_bind k (k' x))
  end.

#[global] Instance prog_mret : MRet prog := @Ret.
#[global] Instance prog_mbind : MBind prog := @prog_bind.

(** A call used as a statement or an expression. *)
Definition perform {X} (c : call X) : prog X := Do c Ret.

(** One call as the outside world saw it: the call and its answer. *)
Inductive event : Type :=
| Ev {X : Type} (c : call X) (r : result X).

(** The path an event wrote to, if it was a [save]. *)
Definition written (ev : event) : option string :=
  match ev with
  | Ev c _ =>
      match c with
      | save _ fp _ => Some fp
      | _ => None
      end
  end.

(** The outside world: a state [W] and, for each call, the new state and
    the answer. *)
Definition handler (W : Type) : Type :=
  forall X : Type, call X -> W -> W * result X.

Record outcome (W A : Type) : Type := mkOutcome {
  world : W;
  trace : list event;
  returned : result A
}.
Arguments mkOutcome {W A} world trace returned.
Arguments world {W A} o.
Arguments trace {W A} o.
Arguments returned {W A} o.

(** Running a body: an exception raised by a call, or by pure code, ends
    the run at once; nothing in the script catches it. *)
Fixpoint run {W A} (h : handler W) (p : prog A) (w : W) : outcome W A :=
  match p with
  | Ret a => mkOutcome w [] (Ok a)
  | Raise e => mkOutcome w [] (Err e)
  | Do c k =>
      match h _ c w with
      | (w1, Ok x) =>
          let o := run h (k x) w1 in
          mkOutcome (world o) (Ev c (Ok x) :: trace o) (returned o)
      | (w1, Err e) => mkOutcome w1 [Ev c (Err e)] (Err e)
      end
  end.

End PIL.

Import PIL.

(* ------------------------------------------------------------------ *)
(** ** The script *)

Module RemoveBg.

(** The literal [(255, 255, 255, 0)]. *)
Definition transparent_white : tuple := [255; 255; 255; 0].

(** [item[0] > 220 and item[1] > 220 and item[2] > 220].  Python's [and]
    evaluates its right operand only when the left one is true, so a
    channel is read only if the ones before it passed. *)
Definition near_white (item : tuple) : result bool :=
  r ← getitem item 0;
  if r >? 220 then
    g ← getitem item 1;
    if g >? 220 then
      b ← getitem item 2;
      Ok (b >? 220)
    else Ok false
  else Ok false.

(** The [for item in datas:] loop; [newData] is the list built so far. *)
Fixpoint for_item_in (datas : list tuple) (newData : list tuple)
  : result (list tuple) :=
  match datas with
  | [] => Ok newData
  | item :: rest =>
      c ← near_white item;
      if (c : bool)
      then for_item_in rest (newData ++ [transparent_white])
      else for_item_in rest (newData ++ [item])
  end.

Definition remove_white_background (input_path output_path : string)
  : prog unit :=
  img ← perform (Image_open input_path);
  img ← perform (convert img "RGBA");
  let datas := getdata img in
  newData ← lift (for_item_in datas []);
  img' ← lift (putdata img newData);
  _ ← perform (save img' output_path "PNG");
  perform (print ("Saved transparent image to " +:+ output_path)).

(** The call at the bottom of the module. *)
Definition main : prog unit :=
  remove_white_background "public/zen-circle.png" "public/zen-circle.png".

(* ------------------------------------------------------------------ *)
(** ** Vocabulary of the properties *)

(** A pixel as [convert("RGBA")] delivers it: a 4-tuple. *)
Definition rgba (item : tuple) : Prop := length item = 4%nat.

(** An image as [convert("RGBA")] delivers it: mode RGBA, one 4-tuple per
    position of the grid. *)
Record rgba_image (img : Image) : Prop := {
  rgba_mode : mode img = "RGBA";
  rgba_grid : length (im img) = (width img * height img)%nat;
  rgba_pixels : Forall rgba (im img)
}.

(** The test of the loop as a total function of the pixel: all of the
    first three channels above 220. *)
Definition background (item : tuple) : bool :=
  match item with
  | r :: g :: b :: _ => (r >? 220) && (g >? 220) && (b >? 220)
  | _ => false
  end.

(** What one turn of the loop appends for [item]. *)
Definition pixel_map (item : tuple) : tuple :=
  if background item then transparent_white else item.

(** The image handed to [save], computed from the normalised one. *)
Definition cut_out (img : Image) : Image :=
  {| mode := mode img; size := size img; im := map pixel_map (im img) |}.

(** The confirmation line. *)
Definition confirmation (output_path : string) : string :=
  "Saved transparent image to " +:+ output_path.

End RemoveBg.

Import RemoveBg.

(* ------------------------------------------------------------------ *)
(** ** A disk to run the script on

    A small outside world used to exercise the statements below on
    concrete inputs: files hold images, some paths cannot be written,
    printed lines are collected. *)

Module Disk.

Record disk : Type := mkDisk {
  files : gmap string Image;
  locked : gset string;
  stdout : list string
}.

(** Band layouts this disk knows how to bring to four channels. *)
Definition to_rgba (item : tuple) : tuple :=
  match item with
  | [l] => [l; l; l; 255]
  | [r; g; b] => [r; g; b; 255]
  | _ => item
  end.

Definition answer : handler disk := fun X c =>
  match c in call X return disk -> disk * result X with
  | Image_open fp => fun d =>
      (d, match files d !! fp with
          | Some img => Ok img
          | None => Err FileNotFoundError
          end)
  | convert self m => fun d =>
      (d, Ok {| mode := m; size := size self; im := map to_rgba (im self) |})
  | save self fp _ => fun d =>
      if decide (fp ∈ locked d)
      then (d, Err PermissionError)
      else ({| files := <[fp := self]> (files d);
               locked := locked d;
               stdout := stdout d |}, Ok tt)
  | print line => fun d =>
      ({| files := files d; locked := locked d;
          stdout := stdout d ++ [line] |}, Ok tt)
  end.

(** The 2x1 image of the end-to-end scenario, and a one-pixel RGB one. *)
Definition two_by_one : Image :=
  {| mode := "RGBA"; size := (2, 1)%nat;
     im := [[255; 255; 255; 255]; [0; 0; 0; 255]] |}.

Definition light_grey : Image :=
  {| mode := "RGB"; size := (1, 1)%nat; im := [[221; 221; 221]] |}.

Definition grey : Image :=
  {| mode := "RGB"; size := (1, 1)%nat; im := [[220; 220; 220]] |}.

Definition shelf : disk :=
  {| files := {[ "a.png" := two_by_one;
                 "b.png" := light_grey;
                 "c.png" := grey ]};
     locked := {[ "ro.png" ]};
     stdout := [] |}.

End Disk.

(* ------------------------------------------------------------------ *)
(** ** Further vocabulary: channels, the order of calls, a second disk *)


(** The calls the body of [remove_white_background] makes, by position:
    what the [n]-th call may be, for given arguments. *)
Definition scripted (input_path output_path : string) (n : nat)
    (ev : event) : Prop :=
  match ev with
  | Ev c _ =>
      match c with
      | Image_open fp => n = 0%nat /\ fp = input_path
      | convert _ m => n = 1%nat /\ m = "RGBA"
      | save _ fp fmt => n = 2%nat /\ fp = output_path /\ fmt = "PNG"
      | print line =>
          n = 3%nat /\ line = "Saved transparent image to " +:+ output_path
      end
  end.

Module Attic.

(** A two-band image, whose pixels [Disk.to_rgba] leaves as they are. *)
Definition grey_alpha : Image :=
  {| mode := "LA"; size := (2, 1)%nat; im := [[10; 255]; [250; 255]] |}.

Definition opaque_art : Image :=
  {| mode := "RGBA"; size := (2, 1)%nat;
     im := [[10; 20; 30; 255]; [255; 255; 220; 128]] |}.

Definition blank : Image :=
  {| mode := "RGBA"; size := (2, 1)%nat;
     im := [[255; 255; 255; 255]; [221; 230; 240; 9]] |}.

Definition shelf : Disk.disk :=
  {| Disk.files := {[ "la.png" := grey_alpha;
                      "art.png" := opaque_art;
                      "blank.png" := blank;
                      "public/zen-circle.png" := Disk.two_by_one ]};
     Disk.locked := ∅;
     Disk.stdout := [] |}.

End Attic.

(* ------------------------------------------------------------------ *)
(** ** The loop *)

Section Loop.

Implicit Types (item : tuple) (datas newData : list tuple).

Lemma getitem_lookup item i v : item !! i = Some v -> getitem item i = Ok v.
Proof. unfold getitem. intros ->. reflexivity. Qed.

Lemma getitem_in_bounds item i :
  (i < length item)%nat -> exists v, getitem item i = Ok v.
Proof.
  intros Hi. destruct (lookup_lt_is_Some_2 item i Hi) as [v Hv].
  exists v. now apply getitem_lookup.
Qed.

(** On a 4-tuple the test reads three channels and answers [background]. *)
Lemma near_white_rgba item : rgba item -> near_white item = Ok (background item).
Proof.
  unfold rgba. intros Hlen.
  destruct item as [|r [|g [|b [|a [|]]]]]; try discriminate Hlen.
  unfold near_white, getitem, background; cbn.
  destruct (r >? 220), (g >? 220); reflexivity.
Qed.

(** Whenever the test answers at all, it answers [background]. *)
Lemma near_white_background item c : near_white item = Ok c -> c = background item.
Proof.
  unfold near_white, getitem, background.
  destruct item as [|r [|g [|b rest]]]; cbn;
    repeat (match goal with
            | |- context [?x >? 220] => destruct (x >? 220)
            end; cbn);
    congruence.
Qed.

Lemma for_item_in_step item datas newData c :
  near_white item = Ok c ->
  for_item_in (item :: datas) newData
  = for_item_in datas (newData ++ [if c then transparent_white else item]).
Proof. intros H. cbn. rewrite H. cbn. now destruct c. Qed.

(** On an RGBA buffer the loop runs to its end and has appended the image
    of every pixel, in order. *)
Lemma for_item_in_rgba datas : forall newData,
  Forall rgba datas ->
  for_item_in datas newData = Ok (newData ++ map pixel_map datas).
Proof.
  induction datas as [|item datas IH]; intros newData Hall.
  - cbn. now rewrite app_nil_r.
  - inversion Hall as [|? ? Hitem Hrest]; subst.
    rewrite (for_item_in_step _ _ _ _ (near_white_rgba _ Hitem)).
    rewrite IH by assumption.
    rewrite <- app_assoc. reflexivity.
Qed.

(** Any run of the loop that ends has done the same. *)
Lemma for_item_in_inv datas : forall newData out,
  for_item_in datas newData = Ok out ->
  out = newData ++ map pixel_map datas.
Proof.
  induction datas as [|item datas IH]; intros newData out Hrun.
  - cbn in Hrun. injection Hrun as <-. now rewrite app_nil_r.
  - destruct (near_white item) as [c|e] eqn:Hc.
    + rewrite (for_item_in_step _ _ _ _ Hc) in Hrun.
      apply IH in Hrun. subst out.
      rewrite <- app_assoc. cbn. unfold pixel_map at 2.
      now rewrite <- (near_white_background _ _ Hc).
    + cbn in Hrun. rewrite Hc in Hrun. discriminate Hrun.
Qed.

Lemma pixel_map_rgba item : rgba item -> rgba (pixel_map item).
Proof. unfold pixel_map. now destruct (background item). Qed.

Lemma pixel_map_idemp item : pixel_map (pixel_map item) = pixel_map item.
Proof.
  unfold pixel_map. destruct (background item) eqn:Hb.
  - reflexivity.
  - now rewrite Hb.
Qed.

Lemma background_spec r g b a :
  background [r; g; b; a] = true <-> r > 220 /\ g > 220 /\ b > 220.
Proof.
  unfold background. rewrite !andb_true_iff, !Z.gtb_ltb, !Z.ltb_lt. lia.
Qed.

End Loop.

(* ------------------------------------------------------------------ *)
(** ** [putdata] after the loop *)

Section Putdata.

Implicit Types (img : Image) (data : list tuple).

(** A sequence exactly as long as the pixel store replaces it whole. *)
Lemma putdata_full img data img' :
  length data = length (im img) ->
  putdata img data = Ok img' ->
  mode img' = mode img /\ size img' = size img /\ im img' = data.
Proof.
  unfold putdata. intros Hlen.
  destruct (_ <? _)%nat; [discriminate|].
  injection 1 as <-. cbn.
  rewrite Hlen, drop_all, app_nil_r. auto.
Qed.

Lemma putdata_fits img data :
  (length data <= width img * height img)%nat ->
  exists img', putdata img data = Ok img'.
Proof.
  unfold putdata. intros Hle.
  destruct (Nat.ltb_spec (width img * height img) (length data)); [lia|].
  eauto.
Qed.

Lemma putdata_cut_out img :
  rgba_image img -> putdata img (map pixel_map (im img)) = Ok (cut_out img).
Proof.
  intros [_ Hgrid _].
  destruct (putdata_fits img (map pixel_map (im img))) as [img' Hput].
  { rewrite length_map. lia. }
  rewrite Hput. f_equal.
  destruct (putdata_full _ _ _ (length_map _ _) Hput) as (Hm & Hs & Hi).
  destruct img'; cbn in *; subst. reflexivity.
Qed.

End Putdata.

(* ------------------------------------------------------------------ *)
(** ** Runs of [remove_white_background] *)

Section Runs.

Context {W : Type} (h : handler W).

(** The run spelled out, call by call: each answer decides whether the
    next statement is reached. *)
Lemma run_remove_white_background (w0 : W) (input_path output_path : string) :
  run h (remove_white_background input_path output_path) w0 =
  match h _ (Image_open input_path) w0 with
  | (w1, Err e) => mkOutcome w1 [Ev (Image_open input_path) (Err e)] (Err e)
  | (w1, Ok raw) =>
    match h _ (convert raw "RGBA") w1 with
    | (w2, Err e) =>
        mkOutcome w2 [Ev (Image_open input_path) (Ok raw);
                      Ev (convert raw "RGBA") (Err e)] (Err e)
    | (w2, Ok img) =>
      let seen := [Ev (Image_open input_path) (Ok raw);
                   Ev (convert raw "RGBA") (Ok img)] in
      match for_item_in (getdata img) [] with
      | Err e => mkOutcome w2 seen (Err e)
      | Ok newData =>
        match putdata img newData with
        | Err e => mkOutcome w2 seen (Err e)
        | Ok img' =>
          match h _ (save img' output_path "PNG") w2 with
          | (w3, Err e) =>
              mkOutcome w3 (seen ++ [Ev (save img' output_path "PNG") (Err e)])
                        (Err e)
          | (w3, Ok u) =>
            match h _ (print (confirmation output_path)) w3 with
            | (w4, r) =>
                mkOutcome w4
                  (seen ++ [Ev (save img' output_path "PNG") (Ok u);
                            Ev (print (confirmation output_path)) r]) r
            end
          end
        end
      end
    end
  end.
Proof.
  unfold remove_white_background, perform, confirmation. cbn.
  destruct (h _ (Image_open input_path) w0) as [w1 [raw|e]]; [|reflexivity].
  cbn. destruct (h _ (convert raw "RGBA") w1) as [w2 [img|e]]; [|reflexivity].
  cbn. destruct (for_item_in (getdata img) []) as [newData|e]; [|reflexivity].
  cbn. destruct (putdata img newData) as [img'|e]; [|reflexivity].
  cbn. destruct (h _ (save img' output_path "PNG") w2) as [w3 [u|e]];
    [|reflexivity].
  cbn. destruct (h _ (print _) w3) as [w4 [u'|e]]; reflexivity.
Qed.

(** Once the image is open and normalised, the run goes on to [save] with
    the cut-out image. *)
Lemma run_normalised (w0 w1 w2 : W) (input_path output_path : string)
    (raw img : Image) :
  h _ (Image_open input_path) w0 = (w1, Ok raw) ->
  h _ (convert raw "RGBA") w1 = (w2, Ok img) ->
  rgba_image img ->
  run h (remove_white_background input_path output_path) w0 =
  let seen := [Ev (Image_open input_path) (Ok raw);
               Ev (convert raw "RGBA") (Ok img)] in
  match h _ (save (cut_out img) output_path "PNG") w2 with
  | (w3, Err e) =>
      mkOutcome w3 (seen ++ [Ev (save (cut_out img) output_path "PNG") (Err e)])
                (Err e)
  | (w3, Ok u) =>
    match h _ (print (confirmation output_path)) w3 with
    | (w4, r) =>
        mkOutcome w4
          (seen ++ [Ev (save (cut_out img) output_path "PNG") (Ok u);
                    Ev (print (confirmation output_path)) r]) r
    end
  end.
Proof.
  intros Hopen Hconv Himg.
  rewrite run_remove_white_background, Hopen, Hconv. cbn zeta.
  unfold getdata.
  rewrite (for_item_in_rgba _ [] (rgba_pixels _ Himg)). cbn [app].
  rewrite (putdata_cut_out _ Himg). reflexivity.
Qed.

Lemma run_normalised_save (w0 w1 w2 : W) (input_path output_path : string)
    (raw img : Image) :
  h _ (Image_open input_path) w0 = (w1, Ok raw) ->
  h _ (convert raw "RGBA") w1 = (w2, Ok img) ->
  rgba_image img ->
  exists ans,
    trace (run h (remove_white_background input_path output_path) w0) !! 2%nat
    = Some (Ev (save (cut_out img) output_path "PNG") ans).
Proof.
  intros Hopen Hconv Himg.
  rewrite (run_normalised _ _ _ _ _ _ _ Hopen Hconv Himg). cbn zeta.
  destruct (h _ (save _ _ _) w2) as [w3 [u|e]].
  - destruct (h _ (print _) w3) as [w4 r]. eexists. reflexivity.
  - eexists. reflexivity.
Qed.

End Runs.

(* ------------------------------------------------------------------ *)
(** ** Properties of the pixel pass *)

(** C1.  Every pixel of the normalised image whose red, green and blue
    channels are all strictly above 220 comes out as (255, 255, 255, 0): in
    the list the loop builds, and in the image that is handed to [save].
    In particular (221, 221, 221, 255) becomes (255, 255, 255, 0). *)
Theorem near_white_becomes_transparent {W} (h : handler W) (w0 w1 w2 : W)
    (input_path output_path : string) (raw img : Image)
    (i : nat) (r g b a : Z) :
  h _ (Image_open input_path) w0 = (w1, Ok raw) ->
  h _ (convert raw "RGBA") w1 = (w2, Ok img) ->
  rgba_image img ->
  getdata img !! i = Some [r; g; b; a] ->
  r > 220 -> g > 220 -> b > 220 ->
  (exists newData,
      for_item_in (getdata img) [] = Ok newData
      /\ newData !! i = Some [255; 255; 255; 0])
  /\ (exists img' ans,
      trace (run h (remove_white_background input_path output_path) w0)
        !! 2%nat = Some (Ev (save img' output_path "PNG") ans)
      /\ im img' !! i = Some [255; 255; 255; 0])
  /\ for_item_in [[221; 221; 221; 255]] [] = Ok [[255; 255; 255; 0]].
Proof.
  intros Hopen Hconv Himg Hi Hr Hg Hb.
  assert (Hpix : map pixel_map (im img) !! i = Some [255; 255; 255; 0]).
  { rewrite list_lookup_fmap. unfold getdata in Hi. rewrite Hi. cbn.
    unfold pixel_map.
    now rewrite (proj2 (background_spec r g b a) (conj Hr (conj Hg Hb))). }
  split; [|split].
  - exists (map pixel_map (im img)). split; [|exact Hpix].
    apply (for_item_in_rgba _ [] (rgba_pixels _ Himg)).
  - destruct (run_normalised_save h _ _ _ _ output_path _ _ Hopen Hconv Himg)
      as [ans Hsave].
    exists (cut_out img), ans. split; [exact Hsave|exact Hpix].
  - reflexivity.
Qed.

(** C2.  Every pixel of the normalised image with at least one of red,
    green, blue at most 220 comes out with its four channels as they
    were: in the list the loop builds, and in the image handed to [save].
    In particular (220, 220, 220, 255) stays (220, 220, 220, 255). *)
Theorem other_pixels_unchanged {W} (h : handler W) (w0 w1 w2 : W)
    (input_path output_path : string) (raw img : Image)
    (i : nat) (r g b a : Z) :
  h _ (Image_open input_path) w0 = (w1, Ok raw) ->
  h _ (convert raw "RGBA") w1 = (w2, Ok img) ->
  rgba_image img ->
  getdata img !! i = Some [r; g; b; a] ->
  r <= 220 \/ g <= 220 \/ b <= 220 ->
  (exists newData,
      for_item_in (getdata img) [] = Ok newData
      /\ newData !! i = Some [r; g; b; a])
  /\ (exists img' ans,
      trace (run h (remove_white_background input_path output_path) w0)
        !! 2%nat = Some (Ev (save img' output_path "PNG") ans)
      /\ im img' !! i = Some [r; g; b; a])
  /\ for_item_in [[220; 220; 220; 255]] [] = Ok [[220; 220; 220; 255]].
Proof.
  intros Hopen Hconv Himg Hi Hle.
  assert (Hbg : background [r; g; b; a] = false).
  { destruct (background [r; g; b; a]) eqn:E; [|reflexivity].
    apply background_spec in E. lia. }
  assert (Hpix : map pixel_map (im img) !! i = Some [r; g; b; a]).
  { rewrite list_lookup_fmap. unfold getdata in Hi. rewrite Hi. cbn.
    unfold pixel_map. now rewrite Hbg. }
  split; [|split].
  - exists (map pixel_map (im img)). split; [|exact Hpix].
    apply (for_item_in_rgba _ [] (rgba_pixels _ Himg)).
  - destruct (run_normalised_save h _ _ _ _ output_path _ _ Hopen Hconv Himg)
      as [ans Hsave].
    exists (cut_out img), ans. split; [exact Hsave|exact Hpix].
  - reflexivity.
Qed.

(** C3.  On an RGBA buffer the loop ends, and whenever it ends every pixel
    of the list it built is, position by position, either the input pixel
    itself (all four channels) or (255, 255, 255, 0). *)
Theorem output_kept_or_transparent (datas : list tuple) :
  (Forall rgba datas -> exists newData, for_item_in datas [] = Ok newData)
  /\ (forall newData,
        for_item_in datas [] = Ok newData ->
        Forall2 (fun item out => out = item \/ out = [255; 255; 255; 0])
                datas newData).
Proof.
  split.
  - intros Hall. eexists. apply (for_item_in_rgba _ [] Hall).
  - intros newData Hrun. apply for_item_in_inv in Hrun. subst newData.
    cbn [app]. apply Forall2_fmap_r, Forall_Forall2_diag, Forall_forall.
    intros item _. unfold compose, pixel_map.
    destruct (background item); [right|left]; reflexivity.
Qed.

(** C4.  The pass is idempotent: on an RGBA buffer, running the loop on its
    own output gives that output again.  The transparent value passes the
    test and is replaced by itself. *)
Theorem transform_idempotent (datas : list tuple) :
  Forall rgba datas ->
  (exists once,
      for_item_in datas [] = Ok once /\ for_item_in once [] = Ok once)
  /\ near_white [255; 255; 255; 0] = Ok true
  /\ for_item_in [[255; 255; 255; 0]] [] = Ok [[255; 255; 255; 0]].
Proof.
  intros Hall. split; [|split; reflexivity].
  exists (map pixel_map datas). split.
  - apply (for_item_in_rgba _ [] Hall).
  - rewrite for_item_in_rgba.
    + cbn [app]. rewrite <- list_fmap_compose. f_equal.
      apply list_fmap_ext. intros ? item _. cbn. apply pixel_map_idemp.
    + apply Forall_fmap. eapply Forall_impl; [exact Hall|].
      intros item. apply pixel_map_rgba.
Qed.

(** C5.  The pass is a map: one function on pixels such that the loop, on
    any RGBA buffer, returns that function applied to each pixel in order,
    and such that any run of the loop that ends has returned exactly
    that.  Position and neighbours play no part. *)
Theorem transform_is_pixelwise_map :
  exists f : tuple -> tuple,
    forall datas : list tuple,
      (Forall rgba datas -> for_item_in datas [] = Ok (map f datas))
      /\ (forall newData,
            for_item_in datas [] = Ok newData -> newData = map f datas).
Proof.
  exists pixel_map. intros datas. split.
  - intros Hall. apply (for_item_in_rgba _ [] Hall).
  - intros newData Hrun. apply (for_item_in_inv _ [] _ Hrun).
Qed.

(** C6.  Whenever the call returns normally, the image it handed to [save]
    has the width and height of the normalised input image and as many
    pixels, namely the list the loop built from it; the four calls made
    are, in order, open, convert, save and print. *)
Theorem dimensions_preserved {W} (h : handler W) (w0 : W)
    (input_path output_path : string) :
  returned (run h (remove_white_background input_path output_path) w0)
    = Ok tt ->
  exists raw img img',
    trace (run h (remove_white_background input_path output_path) w0)
    = [Ev (Image_open input_path) (Ok raw);
       Ev (convert raw "RGBA") (Ok img);
       Ev (save img' output_path "PNG") (Ok tt);
       Ev (print (confirmation output_path)) (Ok tt)]
    /\ width img' = width img
    /\ height img' = height img
    /\ length (im img') = length (im img)
    /\ for_item_in (getdata img) [] = Ok (im img')
    /\ (size img = size raw -> size img' = size raw).
Proof.
  rewrite run_remove_white_background.
  destruct (h _ (Image_open input_path) w0) as [w1 [raw|e]]; [|discriminate].
  destruct (h _ (convert raw "RGBA") w1) as [w2 [img|e]]; [|discriminate].
  cbn zeta.
  destruct (for_item_in (getdata img) []) as [newData|e] eqn:Hloop;
    [|discriminate].
  destruct (putdata img newData) as [img'|e] eqn:Hput; [|discriminate].
  destruct (h _ (save img' output_path "PNG") w2) as [w3 [[]|e]];
    [|discriminate].
  destruct (h _ (print (confirmation output_path)) w3) as [w4 [[]|e]];
    [|discriminate].
  intros _. exists raw, img, img'.
  apply for_item_in_inv in Hloop as Hmap. cbn [app] in Hmap.
  assert (Hlen : length newData = length (im img)).
  { subst newData. apply length_map. }
  destruct (putdata_full _ _ _ Hlen Hput) as (_ & Hsize & Him).
  unfold width, height. rewrite Hsize, Him.
  repeat split; try assumption; try congruence.
Qed.

(** C7.  On the 2x1 image [(255,255,255,255), (0,0,0,255)] the loop builds
    [(255,255,255,0), (0,0,0,255)], [putdata] stores exactly that in a 2x1
    image, and a run over a disk that holds the image writes it out. *)
Theorem two_by_one_scenario :
  let datas := [[255; 255; 255; 255]; [0; 0; 0; 255]] in
  let expected := [[255; 255; 255; 0]; [0; 0; 0; 255]] in
  let input := {| mode := "RGBA"; size := (2, 1)%nat; im := datas |} in
  let output := {| mode := "RGBA"; size := (2, 1)%nat; im := expected |} in
  for_item_in (getdata input) [] = Ok expected
  /\ putdata input expected = Ok output
  /\ Disk.files Disk.shelf !! "a.png" = Some input
  /\ Disk.files
       (world (run Disk.answer (remove_white_background "a.png" "out.png")
                   Disk.shelf)) !! "out.png" = Some output.
Proof. vm_compute. repeat split. Qed.

(** C8.  A failure of [Image.open], of [convert] or of [save] ends the call
    with that very exception: the failing call is the last one made, so
    nothing is retried, recovered or cleaned up, and the world is left as
    the failing call left it.  When decoding fails no [save] is made at
    all, so no path is written. *)
Theorem failures_propagate {W} (h : handler W) (w0 : W)
    (input_path output_path : string) :
  let o := run h (remove_white_background input_path output_path) w0 in
  (forall w1 e,
      h _ (Image_open input_path) w0 = (w1, Err e) ->
      o = mkOutcome w1 [Ev (Image_open input_path) (Err e)] (Err e)
      /\ Forall (fun ev => written ev = None) (trace o))
  /\ (forall w1 raw w2 e,
      h _ (Image_open input_path) w0 = (w1, Ok raw) ->
      h _ (convert raw "RGBA") w1 = (w2, Err e) ->
      o = mkOutcome w2 [Ev (Image_open input_path) (Ok raw);
                        Ev (convert raw "RGBA") (Err e)] (Err e)
      /\ Forall (fun ev => written ev = None) (trace o))
  /\ (forall w1 raw w2 img newData img' w3 e,
      h _ (Image_open input_path) w0 = (w1, Ok raw) ->
      h _ (convert raw "RGBA") w1 = (w2, Ok img) ->
      for_item_in (getdata img) [] = Ok newData ->
      putdata img newData = Ok img' ->
      h _ (save img' output_path "PNG") w2 = (w3, Err e) ->
      o = mkOutcome w3 [Ev (Image_open input_path) (Ok raw);
                        Ev (convert raw "RGBA") (Ok img);
                        Ev (save img' output_path "PNG") (Err e)] (Err e)).
Proof.
  cbn zeta. rewrite run_remove_white_background.
  split; [|split].
  - intros w1 e ->. split; [reflexivity|]. repeat constructor.
  - intros w1 raw w2 e -> ->. split; [reflexivity|]. repeat constructor.
  - intros w1 raw w2 img newData img' w3 e -> -> -> -> ->. reflexivity.
Qed.

(** C9.  Alpha plays no part in the test: two RGBA buffers that hold, at
    some position, pixels with the same red, green and blue get the same
    verdict there, whatever the two alphas.  With verdict "background"
    both outputs are (255, 255, 255, 0), the alphas gone; otherwise each
    pixel is kept as it was. *)
Theorem alpha_not_consulted (datas1 datas2 : list tuple) (i : nat)
    (r g b a1 a2 : Z) :
  Forall rgba datas1 ->
  Forall rgba datas2 ->
  datas1 !! i = Some [r; g; b; a1] ->
  datas2 !! i = Some [r; g; b; a2] ->
  exists (c : bool) (out1 out2 : list tuple),
    near_white [r; g; b; a1] = Ok c
    /\ near_white [r; g; b; a2] = Ok c
    /\ for_item_in datas1 [] = Ok out1
    /\ for_item_in datas2 [] = Ok out2
    /\ out1 !! i = Some (if c then [255; 255; 255; 0] else [r; g; b; a1])
    /\ out2 !! i = Some (if c then [255; 255; 255; 0] else [r; g; b; a2]).
Proof.
  intros Hall1 Hall2 H1 H2.
  exists (background [r; g; b; a1]),
         (map pixel_map datas1), (map pixel_map datas2).
  repeat split.
  - now apply near_white_rgba.
  - now rewrite (near_white_rgba [r; g; b; a2]).
  - apply (for_item_in_rgba _ [] Hall1).
  - apply (for_item_in_rgba _ [] Hall2).
  - rewrite list_lookup_fmap, H1. reflexivity.
  - rewrite list_lookup_fmap, H2. reflexivity.
Qed.

(** C10.  If every pixel of the buffer is a 4-tuple, then for each of them
    the reads [item[0]], [item[1]], [item[2]] are in bounds and the test
    yields a verdict, and the loop as a whole runs to its end without
    raising. *)
Theorem channel_reads_in_bounds (datas : list tuple) :
  Forall (fun item => length item = 4%nat) datas ->
  (forall item, item ∈ datas ->
     exists (r g b : Z) (c : bool),
       getitem item 0 = Ok r /\ getitem item 1 = Ok g
       /\ getitem item 2 = Ok b /\ near_white item = Ok c)
  /\ exists newData, for_item_in datas [] = Ok newData.
Proof.
  intros Hall. split.
  - intros item Hin.
    assert (Hlen : length item = 4%nat).
    { rewrite Forall_forall in Hall. now apply Hall. }
    destruct (getitem_in_bounds item 0) as [r Hr]; [lia|].
    destruct (getitem_in_bounds item 1) as [g Hg]; [lia|].
    destruct (getitem_in_bounds item 2) as [b Hb]; [lia|].
    exists r, g, b, (background item).
    repeat split; try assumption. now apply near_white_rgba.
  - eexists. apply (for_item_in_rgba _ [] Hall).
Qed.

(* ------------------------------------------------------------------ *)
(** ** The properties at work on the disk *)

Lemma light_grey_normalised :
  rgba_image {| mode := "RGBA"; size := (1, 1)%nat;
                im := [[221; 221; 221; 255]] |}.
Proof. split; [reflexivity | reflexivity | repeat constructor]. Defined.

Lemma grey_normalised :
  rgba_image {| mode := "RGBA"; size := (1, 1)%nat;
                im := [[220; 220; 220; 255]] |}.
Proof. split; [reflexivity | reflexivity | repeat constructor]. Defined.

(** The light grey pixel of [b.png] is cut out. *)
Lemma near_white_becomes_transparent_b_png :
  (exists newData,
      for_item_in [[221; 221; 221; 255]] [] = Ok newData
      /\ newData !! 0%nat = Some [255; 255; 255; 0])
  /\ (exists img' ans,
      trace (run Disk.answer (remove_white_background "b.png" "out.png")
                 Disk.shelf)
        !! 2%nat = Some (Ev (save img' "out.png" "PNG") ans)
      /\ im img' !! 0%nat = Some [255; 255; 255; 0])
  /\ for_item_in [[221; 221; 221; 255]] [] = Ok [[255; 255; 255; 0]].
Proof.
  apply (near_white_becomes_transparent Disk.answer
           Disk.shelf Disk.shelf Disk.shelf "b.png" "out.png"
           Disk.light_grey
           {| mode := "RGBA"; size := (1, 1)%nat;
              im := [[221; 221; 221; 255]] |}
           0 221 221 221 255).
  - vm_compute. reflexivity.
  - vm_compute. reflexivity.
  - exact light_grey_normalised.
  - reflexivity.
  - lia.
  - lia.
  - lia.
Defined.

(** The grey pixel of [c.png] is kept. *)
Lemma other_pixels_unchanged_c_png :
  (exists newData,
      for_item_in [[220; 220; 220; 255]] [] = Ok newData
      /\ newData !! 0%nat = Some [220; 220; 220; 255])
  /\ (exists img' ans,
      trace (run Disk.answer (remove_white_background "c.png" "out.png")
                 Disk.shelf)
        !! 2%nat = Some (Ev (save img' "out.png" "PNG") ans)
      /\ im img' !! 0%nat = Some [220; 220; 220; 255])
  /\ for_item_in [[220; 220; 220; 255]] [] = Ok [[220; 220; 220; 255]].
Proof.
  apply (other_pixels_unchanged Disk.answer
           Disk.shelf Disk.shelf Disk.shelf "c.png" "out.png"
           Disk.grey
           {| mode := "RGBA"; size := (1, 1)%nat;
              im := [[220; 220; 220; 255]] |}
           0 220 220 220 255).
  - vm_compute. reflexivity.
  - vm_compute. reflexivity.
  - exact grey_normalised.
  - reflexivity.
  - left. lia.
Defined.

Lemma output_kept_or_transparent_two_by_one :
  Forall2 (fun item out => out = item \/ out = [255; 255; 255; 0])
          [[255; 255; 255; 255]; [0; 0; 0; 255]]
          [[255; 255; 255; 0]; [0; 0; 0; 255]].
Proof.
  apply (proj2 (output_kept_or_transparent
                  [[255; 255; 255; 255]; [0; 0; 0; 255]])).
  reflexivity.
Defined.

Lemma transform_idempotent_two_by_one :
  (exists once,
      for_item_in [[255; 255; 255; 255]; [0; 0; 0; 255]] [] = Ok once
      /\ for_item_in once [] = Ok once)
  /\ near_white [255; 255; 255; 0] = Ok true
  /\ for_item_in [[255; 255; 255; 0]] [] = Ok [[255; 255; 255; 0]].
Proof.
  apply (transform_idempotent [[255; 255; 255; 255]; [0; 0; 0; 255]]).
  repeat constructor.
Defined.

Lemma transform_is_pixelwise_map_two_by_one :
  exists f : tuple -> tuple,
    for_item_in [[255; 255; 255; 255]; [0; 0; 0; 255]] []
    = Ok [f [255; 255; 255; 255]; f [0; 0; 0; 255]].
Proof.
  destruct transform_is_pixelwise_map as [f Hf].
  exists f.
  apply (proj1 (Hf [[255; 255; 255; 255]; [0; 0; 0; 255]])).
  repeat constructor.
Defined.

(** A whole run over [a.png]: four calls, the size is kept. *)
Lemma dimensions_preserved_a_png :
  exists raw img img',
    trace (run Disk.answer (remove_white_background "a.png" "out.png")
               Disk.shelf)
    = [Ev (Image_open "a.png") (Ok raw);
       Ev (convert raw "RGBA") (Ok img);
       Ev (save img' "out.png" "PNG") (Ok tt);
       Ev (print (confirmation "out.png")) (Ok tt)]
    /\ width img' = width img
    /\ height img' = height img
    /\ length (im img') = length (im img)
    /\ for_item_in (getdata img) [] = Ok (im img')
    /\ (size img = size raw -> size img' = size raw).
Proof.
  apply (dimensions_preserved Disk.answer Disk.shelf "a.png" "out.png").
  vm_compute. reflexivity.
Defined.

(** A missing input and a locked output: the exception comes back, and
    the missing input leaves the disk as it was. *)
Lemma failures_propagate_on_disk :
  run Disk.answer (remove_white_background "nowhere.png" "out.png")
      Disk.shelf
  = mkOutcome Disk.shelf
      [Ev (Image_open "nowhere.png") (Err FileNotFoundError)]
      (Err FileNotFoundError)
  /\ returned (run Disk.answer (remove_white_background "a.png" "ro.png")
                   Disk.shelf)
     = Err PermissionError.
Proof.
  split.
  - apply (proj1 (failures_propagate Disk.answer Disk.shelf
                    "nowhere.png" "out.png") Disk.shelf FileNotFoundError).
    vm_compute. reflexivity.
  - rewrite (proj2 (proj2 (failures_propagate Disk.answer Disk.shelf
                             "a.png" "ro.png"))
               Disk.shelf Disk.two_by_one Disk.shelf Disk.two_by_one
               [[255; 255; 255; 0]; [0; 0; 0; 255]]
               {| mode := "RGBA"; size := (2, 1)%nat;
                  im := [[255; 255; 255; 0]; [0; 0; 0; 255]] |}
               Disk.shelf PermissionError).
    + reflexivity.
    + vm_compute. reflexivity.
    + vm_compute. reflexivity.
    + reflexivity.
    + reflexivity.
    + vm_compute. reflexivity.
Defined.

Lemma alpha_not_consulted_white :
  exists (c : bool) (out1 out2 : list tuple),
    near_white [255; 255; 255; 255] = Ok c
    /\ near_white [255; 255; 255; 7] = Ok c
    /\ for_item_in [[255; 255; 255; 255]; [0; 0; 0; 255]] [] = Ok out1
    /\ for_item_in [[255; 255; 255; 7]] [] = Ok out2
    /\ out1 !! 0%nat
       = Some (if c then [255; 255; 255; 0] else [255; 255; 255; 255])
    /\ out2 !! 0%nat
       = Some (if c then [255; 255; 255; 0] else [255; 255; 255; 7]).
Proof.
  apply (alpha_not_consulted
           [[255; 255; 255; 255]; [0; 0; 0; 255]] [[255; 255; 255; 7]]
           0 255 255 255 255 7).
  - repeat constructor.
  - repeat constructor.
  - reflexivity.
  - reflexivity.
Defined.

Lemma channel_reads_in_bounds_two_by_one :
  (forall item, item ∈ [[255; 255; 255; 255]; [0; 0; 0; 255]] ->
     exists (r g b : Z) (c : bool),
       getitem item 0 = Ok r /\ getitem item 1 = Ok g
       /\ getitem item 2 = Ok b /\ near_white item = Ok c)
  /\ exists newData,
       for_item_in [[255; 255; 255; 255]; [0; 0; 0; 255]] [] = Ok newData.
Proof.
  apply (channel_reads_in_bounds [[255; 255; 255; 255]; [0; 0; 0; 255]]).
  repeat constructor.
Defined.

(* ------------------------------------------------------------------ *)
(** ** Further facts about the loop *)

Section LoopOutcome.

Implicit Types (item : tuple) (datas newData : list tuple).

(** The only exception the test can raise is [IndexError]. *)
Lemma near_white_err item e : near_white item = Err e -> e = IndexError.
Proof.
  unfold near_white, getitem.
  destruct item as [|r [|g [|b rest]]]; cbn;
    repeat (match goal with
            | |- context [?x >? 220] => destruct (x >? 220)
            end; cbn);
    congruence.
Qed.

(** The loop ends exactly when the test yields a verdict on every pixel,
    and then it has appended the image of each. *)
Lemma for_item_in_ok_iff datas : forall newData out,
  for_item_in datas newData = Ok out <->
  Forall (fun item => exists c, near_white item = Ok c) datas
  /\ out = newData ++ map pixel_map datas.
Proof.
  induction datas as [|item datas IH]; intros newData out.
  - cbn. rewrite app_nil_r. split.
    + injection 1 as <-. auto.
    + intros [_ ->]. reflexivity.
  - destruct (near_white item) as [c|e] eqn:Hc.
    + rewrite (for_item_in_step _ _ _ _ Hc), IH, Forall_cons.
      rewrite <- app_assoc. cbn [app map]. unfold pixel_map at 2.
      rewrite <- (near_white_background _ _ Hc).
      split; intros [Hall ->]; (split; [|reflexivity]).
      * split; [eauto|assumption].
      * apply Hall.
    + cbn. rewrite Hc. cbn. split; [discriminate|].
      intros [Hall _]. inversion Hall as [|? ? [c Hc'] _]; subst.
      congruence.
Qed.


End LoopOutcome.

(* ------------------------------------------------------------------ *)
(** ** Further properties *)

(** X1.  The test reads no channel it does not need.  It raises only
    [IndexError], and exactly when the tuple ends before a channel that
    has to be read: an empty tuple, a 1-tuple whose only value is above
    220, a 2-tuple whose two values are above 220.  On any tuple with at
    least three values it answers from the first three alone, whatever
    follows them. *)
Theorem near_white_raises_only_on_missing_channel (item : tuple) :
  (forall e, near_white item = Err e -> e = IndexError)
  /\ (near_white item = Err IndexError <->
      match item with
      | [] => True
      | [r] => r > 220
      | [r; g] => r > 220 /\ g > 220
      | _ => False
      end)
  /\ (forall r g b rest,
        item = r :: g :: b :: rest ->
        near_white item = Ok ((r >? 220) && (g >? 220) && (b >? 220))).
Proof.
  split; [apply near_white_err|split].
  - unfold near_white, getitem.
    destruct item as [|r [|g [|b rest]]]; cbn.
    + tauto.
    + destruct (Z.gtb_spec r 220); cbn; split;
        try discriminate; try tauto; lia.
    + destruct (Z.gtb_spec r 220), (Z.gtb_spec g 220); cbn; split;
        try discriminate; try tauto; lia.
    + destruct (r >? 220), (g >? 220); cbn; split;
        try discriminate; tauto.
  - intros r g b rest ->. unfold near_white, getitem. cbn.
    destruct (r >? 220), (g >? 220); reflexivity.
Qed.

(** X2.  The loop can be run in pieces: it ends on [d1 ++ d2] with [out]
    exactly when it ends on [d1] and on [d2] and [out] is the two results
    one after the other. *)
Theorem loop_over_chunks (d1 d2 out : list tuple) :
  for_item_in (d1 ++ d2) [] = Ok out <->
  exists o1 o2,
    for_item_in d1 [] = Ok o1 /\ for_item_in d2 [] = Ok o2
    /\ out = o1 ++ o2.
Proof.
  rewrite for_item_in_ok_iff, Forall_app, map_app. cbn [app]. split.
  - intros [[H1 H2] ->].
    exists (map pixel_map d1), (map pixel_map d2).
    rewrite !for_item_in_ok_iff. cbn [app]. auto.
  - intros (o1 & o2 & H1 & H2 & ->).
    apply for_item_in_ok_iff in H1 as [H1 ->].
    apply for_item_in_ok_iff in H2 as [H2 ->]. auto.
Qed.


(** X4.  After the pass no near-white pixel is left visible: on an RGBA
    buffer the loop ends, and any pixel of its result whose red, green and
    blue are all above 220 is (255, 255, 255, 0), alpha zero. *)
Theorem no_near_white_left_visible (datas : list tuple) :
  Forall rgba datas ->
  exists newData,
    for_item_in datas [] = Ok newData
    /\ forall i r g b a,
         newData !! i = Some [r; g; b; a] ->
         r > 220 -> g > 220 -> b > 220 ->
         [r; g; b; a] = [255; 255; 255; 0].
Proof.
  intros Hall. exists (map pixel_map datas). split.
  - apply (for_item_in_rgba _ [] Hall).
  - intros i r g b a Hi Hr Hg Hb.
    rewrite list_lookup_fmap in Hi.
    destruct (datas !! i) as [item|]; [|discriminate].
    cbn in Hi. injection Hi as Hi. unfold pixel_map in Hi.
    destruct (background item) eqn:Hbg.
    + now rewrite <- Hi.
    + subst item.
      rewrite (proj2 (background_spec r g b a) (conj Hr (conj Hg Hb))) in Hbg.
      discriminate.
Qed.


(** X6.  The pass only lightens and only fades: for a pixel with colour
    channels at most 255 and alpha at least 0, each colour channel of the
    output pixel is at least the input's and the output alpha is at most
    the input's. *)
Theorem pixels_only_lighten_and_fade (datas : list tuple) (i : nat)
    (r g b a : Z) :
  Forall rgba datas ->
  datas !! i = Some [r; g; b; a] ->
  r <= 255 -> g <= 255 -> b <= 255 -> 0 <= a ->
  exists newData r' g' b' a',
    for_item_in datas [] = Ok newData
    /\ newData !! i = Some [r'; g'; b'; a']
    /\ r <= r' /\ g <= g' /\ b <= b' /\ a' <= a.
Proof.
  intros Hall Hi Hr Hg Hb Ha.
  assert (Hout : map pixel_map datas !! i = Some (pixel_map [r; g; b; a])).
  { rewrite list_lookup_fmap, Hi. reflexivity. }
  pose proof (for_item_in_rgba _ [] Hall) as Hrun. cbn [app] in Hrun.
  unfold pixel_map in Hout.
  destruct (background [r; g; b; a]).
  - exists (map pixel_map datas), 255, 255, 255, 0.
    repeat split; try assumption; lia.
  - exists (map pixel_map datas), r, g, b, a.
    repeat split; try assumption; lia.
Qed.

(** X7.  Whatever the outside world answers, the calls made are a prefix
    of: open [input_path], convert to "RGBA", save to [output_path] as
    "PNG", print the confirmation.  No other path is opened or written,
    no call is made twice, no fifth call is made. *)
Theorem calls_follow_the_script {W} (h : handler W) (w0 : W)
    (input_path output_path : string) (n : nat) (ev : event) :
  trace (run h (remove_white_background input_path output_path) w0) !! n
    = Some ev ->
  scripted input_path output_path n ev.
Proof.
  rewrite run_remove_white_background.
  destruct (h _ (Image_open input_path) w0) as [w1 [raw|e]].
  2:{ destruct n as [|n]; cbn; [|destruct n; discriminate].
      intros [= <-]. cbn. auto. }
  destruct (h _ (convert raw "RGBA") w1) as [w2 [img|e]].
  2:{ destruct n as [|[|n]]; cbn; try (destruct n; discriminate);
        intros [= <-]; cbn; auto. }
  cbn zeta.
  destruct (for_item_in (getdata img) []) as [newData|e].
  2:{ destruct n as [|[|n]]; cbn; try (destruct n; discriminate);
        intros [= <-]; cbn; auto. }
  destruct (putdata img newData) as [img'|e].
  2:{ destruct n as [|[|n]]; cbn; try (destruct n; discriminate);
        intros [= <-]; cbn; auto. }
  destruct (h _ (save img' output_path "PNG") w2) as [w3 [u|e]].
  2:{ destruct n as [|[|[|n]]]; cbn; try (destruct n; discriminate);
        intros [= <-]; cbn; auto. }
  destruct (h _ (print (confirmation output_path)) w3) as [w4 r].
  destruct n as [|[|[|[|n]]]]; cbn; try (destruct n; discriminate);
    intros [= <-]; cbn; auto.
Qed.

(** X8.  The confirmation is printed only after a successful [save]: if a
    fourth call is made at all, the first three were open, convert and a
    [save] that returned, the fourth is the print of "Saved transparent
    image to <output_path>", and the answer to that print is the outcome
    of the whole call.  So when [print] raises, the call raises although
    the file has been saved. *)
Theorem print_only_after_successful_save {W} (h : handler W) (w0 : W)
    (input_path output_path : string) (ev : event) :
  trace (run h (remove_white_background input_path output_path) w0) !! 3%nat
    = Some ev ->
  exists raw img newData img',
    for_item_in (getdata img) [] = Ok newData
    /\ putdata img newData = Ok img'
    /\ trace (run h (remove_white_background input_path output_path) w0)
       = [Ev (Image_open input_path) (Ok raw);
          Ev (convert raw "RGBA") (Ok img);
          Ev (save img' output_path "PNG") (Ok tt);
          Ev (print ("Saved transparent image to " +:+ output_path))
             (returned
                (run h (remove_white_background input_path output_path) w0))].
Proof.
  rewrite run_remove_white_background.
  destruct (h _ (Image_open input_path) w0) as [w1 [raw|e]]; [|discriminate].
  destruct (h _ (convert raw "RGBA") w1) as [w2 [img|e]]; [|discriminate].
  cbn zeta.
  destruct (for_item_in (getdata img) []) as [newData|e] eqn:Hloop;
    [|discriminate].
  destruct (putdata img newData) as [img'|e] eqn:Hput; [|discriminate].
  destruct (h _ (save img' output_path "PNG") w2) as [w3 [[]|e]];
    [|discriminate].
  destruct (h _ (print (confirmation output_path)) w3) as [w4 r].
  intros _. exists raw, img, newData, img'.
  split; [exact Hloop|]. split; [exact Hput|]. reflexivity.
Qed.

(** X9.  The call at the bottom of the module works in place: whenever it
    returns normally, it has opened "public/zen-circle.png", saved the
    image the loop built from it under that same path as PNG, and printed
    "Saved transparent image to public/zen-circle.png". *)
Theorem main_overwrites_its_input {W} (h : handler W) (w0 : W) :
  returned (run h main w0) = Ok tt ->
  exists raw img img',
    trace (run h main w0)
    = [Ev (Image_open "public/zen-circle.png") (Ok raw);
       Ev (convert raw "RGBA") (Ok img);
       Ev (save img' "public/zen-circle.png" "PNG") (Ok tt);
       Ev (print "Saved transparent image to public/zen-circle.png") (Ok tt)]
    /\ for_item_in (getdata img) [] = Ok (im img')
    /\ size img' = size img.
Proof.
  unfold main. rewrite run_remove_white_background.
  destruct (h _ (Image_open _) w0) as [w1 [raw|e]]; [|discriminate].
  destruct (h _ (convert raw "RGBA") w1) as [w2 [img|e]]; [|discriminate].
  cbn zeta.
  destruct (for_item_in (getdata img) []) as [newData|e] eqn:Hloop;
    [|discriminate].
  destruct (putdata img newData) as [img'|e] eqn:Hput; [|discriminate].
  destruct (h _ (save img' _ "PNG") w2) as [w3 [[]|e]]; [|discriminate].
  destruct (h _ (print _) w3) as [w4 [[]|e]]; [|discriminate].
  intros _. exists raw, img, img'.
  apply for_item_in_inv in Hloop as Hmap. cbn [app] in Hmap.
  assert (Hlen : length newData = length (im img)).
  { subst newData. apply length_map. }
  destruct (putdata_full _ _ _ Hlen Hput) as (_ & Hsize & Him).
  split; [reflexivity|]. split; [congruence|exact Hsize].
Qed.

(** X10.  An image in which the test finds no near-white pixel goes
    through untouched: the loop returns the pixel sequence as it was and
    [putdata] gives back the very same image. *)
Theorem image_without_near_white_unchanged (img : Image) :
  length (im img) = (width img * height img)%nat ->
  Forall (fun item => near_white item = Ok false) (getdata img) ->
  for_item_in (getdata img) [] = Ok (im img)
  /\ putdata img (im img) = Ok img.
Proof.
  intros Hgrid Hnone. unfold getdata in *. split.
  - apply for_item_in_ok_iff. split.
    + eapply Forall_impl; [exact Hnone|]. cbn. eauto.
    + cbn [app]. symmetry. rewrite <- (map_id (im img)) at 2.
      apply map_ext_Forall. eapply Forall_impl; [exact Hnone|].
      intros item Hitem. cbn. unfold pixel_map.
      now rewrite <- (near_white_background _ _ Hitem).
  - destruct (putdata_fits img (im img)) as [img' Hput]; [lia|].
    rewrite Hput. f_equal.
    destruct (putdata_full _ _ _ eq_refl Hput) as (Hm & Hs & Hi).
    destruct img, img'; cbn in *; congruence.
Qed.

(** X11.  A buffer in which the test passes on every pixel comes out as
    that many copies of (255, 255, 255, 0). *)
Theorem all_near_white_all_transparent (datas : list tuple) :
  Forall (fun item => near_white item = Ok true) datas ->
  for_item_in datas [] = Ok (replicate (length datas) [255; 255; 255; 0]).
Proof.
  intros Hall. apply for_item_in_ok_iff. split.
  - eapply Forall_impl; [exact Hall|]. cbn. eauto.
  - cbn [app]. induction Hall as [|item datas Hitem _ IH]; [reflexivity|].
    cbn. rewrite <- IH. f_equal. unfold pixel_map.
    now rewrite <- (near_white_background _ _ Hitem).
Qed.

(** X12.  The threshold is monotone: a pixel at least as bright, channel
    by channel, as one the test passes is passed too, whatever the two
    alphas. *)
Theorem brighter_pixels_pass_too (r g b a r' g' b' a' : Z) :
  near_white [r; g; b; a] = Ok true ->
  r <= r' -> g <= g' -> b <= b' ->
  near_white [r'; g'; b'; a'] = Ok true.
Proof.
  intros Hpass Hr Hg Hb.
  rewrite (near_white_rgba [r; g; b; a] eq_refl) in Hpass.
  injection Hpass as Hpass.
  apply (proj1 (background_spec r g b a)) in Hpass.
  rewrite (near_white_rgba [r'; g'; b'; a'] eq_refl). f_equal.
  apply (proj2 (background_spec r' g' b' a')). lia.
Qed.

(* ------------------------------------------------------------------ *)
(** ** The further properties at work *)


Lemma no_near_white_left_visible_blank :
  exists newData,
    for_item_in (im Attic.blank) [] = Ok newData
    /\ forall i r g b a,
         newData !! i = Some [r; g; b; a] ->
         r > 220 -> g > 220 -> b > 220 ->
         [r; g; b; a] = [255; 255; 255; 0].
Proof.
  apply (no_near_white_left_visible (im Attic.blank)).
  repeat constructor.
Defined.



Lemma pixels_only_lighten_and_fade_blank :
  exists newData r' g' b' a',
    for_item_in (im Attic.blank) [] = Ok newData
    /\ newData !! 1%nat = Some [r'; g'; b'; a']
    /\ 221 <= r' /\ 230 <= g' /\ 240 <= b' /\ a' <= 9.
Proof.
  apply (pixels_only_lighten_and_fade (im Attic.blank) 1 221 230 240 9).
  - repeat constructor.
  - reflexivity.
  - lia.
  - lia.
  - lia.
  - lia.
Defined.

Lemma calls_follow_the_script_a_png :
  scripted "a.png" "out.png" 2
    (Ev (save {| mode := "RGBA"; size := (2, 1)%nat;
                 im := [[255; 255; 255; 0]; [0; 0; 0; 255]] |}
              "out.png" "PNG") (Ok tt)).
Proof.
  apply (calls_follow_the_script Disk.answer Disk.shelf "a.png" "out.png").
  vm_compute. reflexivity.
Defined.

Lemma print_only_after_successful_save_a_png :
  exists raw img newData img',
    for_item_in (getdata img) [] = Ok newData
    /\ putdata img newData = Ok img'
    /\ trace (run Disk.answer (remove_white_background "a.png" "out.png")
                  Disk.shelf)
       = [Ev (Image_open "a.png") (Ok raw);
          Ev (convert raw "RGBA") (Ok img);
          Ev (save img' "out.png" "PNG") (Ok tt);
          Ev (print ("Saved transparent image to " +:+ "out.png"))
             (returned
                (run Disk.answer (remove_white_background "a.png" "out.png")
                     Disk.shelf))].
Proof.
  apply (print_only_after_successful_save Disk.answer Disk.shelf
           "a.png" "out.png"
           (Ev (print "Saved transparent image to out.png") (Ok tt))).
  vm_compute. reflexivity.
Defined.

Lemma main_overwrites_its_input_attic :
  exists raw img img',
    trace (run Disk.answer main Attic.shelf)
    = [Ev (Image_open "public/zen-circle.png") (Ok raw);
       Ev (convert raw "RGBA") (Ok img);
       Ev (save img' "public/zen-circle.png" "PNG") (Ok tt);
       Ev (print "Saved transparent image to public/zen-circle.png") (Ok tt)]
    /\ for_item_in (getdata img) [] = Ok (im img')
    /\ size img' = size img.
Proof.
  apply (main_overwrites_its_input Disk.answer Attic.shelf).
  vm_compute. reflexivity.
Defined.

Lemma image_without_near_white_unchanged_art :
  for_item_in (getdata Attic.opaque_art) [] = Ok (im Attic.opaque_art)
  /\ putdata Attic.opaque_art (im Attic.opaque_art) = Ok Attic.opaque_art.
Proof.
  apply (image_without_near_white_unchanged Attic.opaque_art).
  - reflexivity.
  - repeat constructor.
Defined.

Lemma all_near_white_all_transparent_blank :
  for_item_in (im Attic.blank) []
  = Ok [[255; 255; 255; 0]; [255; 255; 255; 0]].
Proof.
  apply (all_near_white_all_transparent (im Attic.blank)).
  repeat constructor.
Defined.

Lemma brighter_pixels_pass_too_221 :
  near_white [240; 221; 255; 0] = Ok true.
Proof.
  apply (brighter_pixels_pass_too 221 221 221 255 240 221 255 0).
  - reflexivity.
  - lia.
  - lia.
  - lia.
Defined.
